(** * docs/conf.py of opendxl-client-java: a shallow embedding

    The repository's only source file is the Sphinx configuration script
    [docs/conf.py].  The script is a sequence of module-level statements:
    three imports, one [with open(...)] suite that reads the file
    ['../VERSION'], one call of [os.getenv] and some thirty assignments.

    The script is embedded as a list of numbered statements, each a
    computation in a small state-and-exception monad over the module's
    global namespace.  What the script takes from its surroundings (the
    installed packages, the file system, the platform's default text
    encoding, the process environment) is gathered in a record [World].
    The built-ins the script calls ([open], [read], [os.getenv], [import])
    follow Python 3: [open(path, 'r')] names no encoding, so the text layer
    decodes with the platform's preferred encoding and translates line
    endings. *)

From stdpp Require Import gmap strings list fin_maps.
From Stdlib.Strings Require Import Byte Ascii String.

Open Scope N_scope.

(** ** The text layer of [open(path, 'r')] *)

Module Codec.

(** A Python 3 [str] is a sequence of Unicode code points. *)
Abbreviation pystr := (list N).

(** The text of a string literal of the script (all of them are ASCII). *)
Definition u (s : string) : pystr := N_of_ascii <$> list_ascii_of_string s.

(** The encodings a platform may prefer (what
    [locale.getpreferredencoding(False)] answers). *)
Inductive encoding := UTF_8 | Latin_1 | ASCII.

Definition is_cont (b : N) : bool := (0x80 <=? b) && (b <? 0xC0).

Definition cont_bits (b : N) : N := N.land b 0x3F.

(** Strict UTF-8: shortest form only, no surrogates, at most U+10FFFF. *)
Fixpoint utf_8_decode (bs : list byte) : option pystr :=
  match bs with
  | [] => Some []
  | b0 :: r0 =>
    let n0 := Byte.to_N b0 in
    if n0 <? 0x80 then cons n0 <$> utf_8_decode r0
    else if n0 <? 0xC2 then None
    else if n0 <? 0xE0 then
      match r0 with
      | b1 :: r1 =>
        let n1 := Byte.to_N b1 in
        if is_cont n1
        then cons (N.lor (N.shiftl (N.land n0 0x1F) 6) (cont_bits n1))
               <$> utf_8_decode r1
        else None
      | _ => None
      end
    else if n0 <? 0xF0 then
      match r0 with
      | b1 :: b2 :: r2 =>
        let n1 := Byte.to_N b1 in
        let n2 := Byte.to_N b2 in
        let cp := N.lor (N.shiftl (N.land n0 0x0F) 12)
                    (N.lor (N.shiftl (cont_bits n1) 6) (cont_bits n2)) in
        if is_cont n1 && is_cont n2 && (0x800 <=? cp)
           && negb ((0xD800 <=? cp) && (cp <=? 0xDFFF))
        then cons cp <$> utf_8_decode r2
        else None
      | _ => None
      end
    else if n0 <? 0xF5 then
      match r0 with
      | b1 :: b2 :: b3 :: r3 =>
        let n1 := Byte.to_N b1 in
        let n2 := Byte.to_N b2 in
        let n3 := Byte.to_N b3 in
        let cp := N.lor (N.shiftl (N.land n0 0x07) 18)
                    (N.lor (N.shiftl (cont_bits n1) 12)
                       (N.lor (N.shiftl (cont_bits n2) 6) (cont_bits n3))) in
        if is_cont n1 && is_cont n2 && is_cont n3
           && (0x10000 <=? cp) && (cp <=? 0x10FFFF)
        then cons cp <$> utf_8_decode r3
        else None
      | _ => None
      end
    else None
  end.

(** ISO-8859-1: every byte is the code point of the same number. *)
Definition latin_1_decode (bs : list byte) : option pystr :=
  Some (Byte.to_N <$> bs).

(** ASCII: bytes from 0x80 on are refused. *)
Fixpoint ascii_decode (bs : list byte) : option pystr :=
  match bs with
  | [] => Some []
  | b :: r =>
    if Byte.to_N b <? 0x80 then cons (Byte.to_N b) <$> ascii_decode r
    else None
  end.

Definition decode (enc : encoding) (bs : list byte) : option pystr :=
  match enc with
  | UTF_8 => utf_8_decode bs
  | Latin_1 => latin_1_decode bs
  | ASCII => ascii_decode bs
  end.

Definition CR : N := 13.
Definition LF : N := 10.

(** [newline=None] on input: ['\r\n'] and a lone ['\r'] both become
    ['\n']. *)
Fixpoint universal_newlines (s : pystr) : pystr :=
  match s with
  | [] => []
  | c :: r =>
    if c =? CR then
      LF :: match r with
            | d :: r' => if d =? LF then universal_newlines r'
                         else universal_newlines r
            | [] => []
            end
    else c :: universal_newlines r
  end.

(** What [read()] returns on a text-mode file opened with no [encoding]
    and no [newline] argument; [None] stands for a decoding error. *)
Definition read_text (enc : encoding) (bs : list byte) : option pystr :=
  universal_newlines <$> decode enc bs.

End Codec.
Export Codec.

(** ** Values, exceptions, the world and the state *)

(** The Python values the script builds or receives.  A module, an object
    imported from a module and an open file are references: they stand
    for the object, not for its state. *)
#[warnings="-register-all"] Inductive value :=
| VNone
| VBool (b : bool)
| VStr (s : pystr)
| VList (items : list value)
| VDict (items : list (value * value))
| VModule (name : string)
| VImported (module name : string)
| VFile (path : string).

Inductive exn :=
| ModuleNotFoundError (module : string)
| ImportError (module name : string)
| NameError (name : string)
| AttributeError (name : string)
| FileNotFoundError (path : string)
| IsADirectoryError (path : string)
| PermissionError (path : string)
| UnicodeDecodeError (enc : encoding).

Inductive node :=
| Directory
| RegularFile (readable : bool) (content : list byte).

(** What an execution of the script depends on. *)
Record World := {
  site_packages : gmap string (list string);
  filesystem : gmap string node;
  preferred_encoding : encoding;
  environ : gmap string pystr
}.

(** What the script does, in order: the operations on its surroundings and
    the bindings of module-level names. *)
Inductive event :=
| EImport (module : string)
| EOpen (path : string)
| ERead (path : string)
| EClose (path : string)
| EGetenv (key : string)
| EBind (name : string) (v : value).

Record State := {
  globals : gmap string value;
  trace : list event
}.

Inductive result (A : Type) :=
| Ok (a : A)
| Raise (e : exn).
Arguments Ok {A} a.
Arguments Raise {A} e.

(** ** The monad of statements and expressions *)

Definition M (A : Type) : Type := World → State → result A * State.

#[export] Instance M_ret : MRet M := λ A a _ st, (Ok a, st).

#[export] Instance M_bind : MBind M := λ A B f m w st,
  match m w st with
  | (Ok a, st') => f a w st'
  | (Raise e, st') => (Raise e, st')
  end.

Definition raise {A} (e : exn) : M A := λ _ st, (Raise e, st).

Definition ask : M World := λ w st, (Ok w, st).

Definition emit (e : event) : M unit := λ _ st,
  (Ok tt, {| globals := globals st; trace := trace st ++ [e] |}).

(** A [try ... finally]: [fin] runs whether [body] raises or not, and an
    exception of [body] goes on afterwards. *)
Definition finally {A} (body : M A) (fin : M unit) : M A := λ w st,
  match body w st with
  | (r, st') =>
    match fin w st' with
    | (Ok _, st'') => (r, st'')
    | (Raise e, st'') => (Raise e, st'')
    end
  end.

Definition seqM (a b : M unit) : M unit := _ ← a; b.

(** Binding a module-level name: [name = v]. *)
Definition bind_name (x : string) (v : value) : M unit := λ _ st,
  (Ok tt, {| globals := <[x := v]> (globals st);
             trace := trace st ++ [EBind x v] |}).

(** *** Expressions *)

Definition Str (s : string) : M value := mret (VStr (u s)).
Definition True_ : M value := mret (VBool true).
Definition False_ : M value := mret (VBool false).

Definition Name (x : string) : M value := λ _ st,
  match globals st !! x with
  | Some v => (Ok v, st)
  | None => (Raise (NameError x), st)
  end.

Fixpoint eval_all (es : list (M value)) : M (list value) :=
  match es with
  | [] => mret []
  | e :: es' => v ← e; vs ← eval_all es'; mret (v :: vs)
  end.

Definition List_ (es : list (M value)) : M value :=
  vs ← eval_all es; mret (VList vs).

Fixpoint eval_items (kvs : list (M value * M value)) : M (list (value * value)) :=
  match kvs with
  | [] => mret []
  | (k, e) :: kvs' =>
    kv ← k; v ← e; r ← eval_items kvs'; mret ((kv, v) :: r)
  end.

Definition Dict_ (kvs : list (M value * M value)) : M value :=
  items ← eval_items kvs; mret (VDict items).

(** The modules every interpreter has, with the attributes the script
    uses; any other module is looked for among the installed packages. *)
Definition find_module (w : World) (m : string) : option (list string) :=
  if String.eqb m "sys" then Some []
  else if String.eqb m "os" then Some ["getenv"]
  else site_packages w !! m.

(** What [os.getenv(key)] answers: the variable's value, or [None] when
    it is unset. *)
Definition getenv (w : World) (key : string) : value :=
  match environ w !! key with
  | Some s => VStr s
  | None => VNone
  end.

(** [os.getenv(key)] *)
Definition os_getenv (key : string) : M value :=
  os ← Name "os";
  match os with
  | VModule "os" =>
    w ← ask;
    _ ← emit (EGetenv key);
    mret (getenv w key)
  | _ => raise (AttributeError "getenv")
  end.

(** [f.read()] on a file opened in text mode. *)
Definition read (f : string) : M value :=
  fv ← Name f;
  match fv with
  | VFile p =>
    w ← ask;
    _ ← emit (ERead p);
    match filesystem w !! p with
    | Some (RegularFile _ bs) =>
      match read_text (preferred_encoding w) bs with
      | Some s => mret (VStr s)
      | None => raise (UnicodeDecodeError (preferred_encoding w))
      end
    | _ => raise (FileNotFoundError p)
    end
  | _ => raise (AttributeError "read")
  end.

(** *** Statements *)

Definition stmt : Type := M unit.

(** [x = e] *)
Definition assign (x : string) (e : M value) : stmt :=
  v ← e; bind_name x v.

(** [import m] *)
Definition import_ (m : string) : stmt :=
  w ← ask;
  _ ← emit (EImport m);
  match find_module w m with
  | Some _ => bind_name m (VModule m)
  | None => raise (ModuleNotFoundError m)
  end.

(** [from m import x].  The import is one step of the script: it fails
    when the module or the name is missing, and what the module's own code
    does while it loads is not followed. *)
Definition from_import (m x : string) : stmt :=
  w ← ask;
  _ ← emit (EImport m);
  match find_module w m with
  | Some names =>
    if bool_decide (x ∈ names) then bind_name x (VImported m x)
    else raise (ImportError m x)
  | None => raise (ModuleNotFoundError m)
  end.

Fixpoint suite (body : list stmt) : stmt :=
  match body with
  | [] => mret tt
  | s :: body' => seqM s (suite body')
  end.

(** The file modes the script uses. *)
Inductive mode := r.

(** [with open(p, 'r') as f: body].  The file is closed when the body is
    left, also by an exception.  [open] is the built-in function: the
    namespace the script runs in is taken not to rebind [open] or
    [__builtins__]. *)
Definition with_open (p : string) (md : mode) (f : string) (body : list stmt) : stmt :=
  w ← ask;
  _ ← emit (EOpen p);
  match filesystem w !! p with
  | None => raise (FileNotFoundError p)
  | Some Directory => raise (IsADirectoryError p)
  | Some (RegularFile false _) => raise (PermissionError p)
  | Some (RegularFile true _) =>
    _ ← bind_name f (VFile p);
    finally (suite body) (emit (EClose p))
  end.

Notation "x '::=' e" := (assign x e) (at level 60, no associativity).

(** ** docs/conf.py *)

(** The script, statement by statement, each with the line it starts on.
    Comments and blank lines bind nothing and are left out. *)
Definition conf_py : list (N * stmt) := [
  (2, suite [import_ "sys"; import_ "os"]);
  (3, from_import "recommonmark.parser" "CommonMarkParser");
  (5, "project" ::= Str "OpenDXL Java SDK");
  (6, "copyright" ::= Str "2019, McAfee LLC");
  (8, with_open "../VERSION" r "content_file" [
        "VERSION" ::= read "content_file" ]);
  (11, "version" ::= Name "VERSION");
  (12, "release" ::= Name "VERSION");
  (15, "needs_sphinx" ::= Str "1.0");
  (16, "master_doc" ::= Str "index");
  (17, "pygments_style" ::= Str "tango");
  (18, "add_function_parentheses" ::= True_);
  (20, "extensions" ::= List_ [Str "sphinx.ext.autodoc"; Str "javasphinx";
                              Str "sphinxcontrib.plantuml"]);
  (23, "templates_path" ::= List_ [Str "_templates"]);
  (24, "exclude_trees" ::= List_ [Str ".build"]);
  (25, "source_suffix" ::= List_ [Str ".rst"; Str ".md"]);
  (26, "source_encoding" ::= Str "utf-8-sig");
  (27, "source_parsers" ::= Dict_ [(Str ".md", Name "CommonMarkParser")]);
  (32, "html_theme" ::= Str "sphinx_rtd_theme");
  (33, "html_short_title" ::= Str "my-project");
  (34, "htmlhelp_basename" ::= Str "my-project-doc");
  (35, "html_use_index" ::= True_);
  (36, "html_show_sourcelink" ::= False_);
  (37, "html_static_path" ::= List_ [Str "_static"]);
  (40, "plantuml" ::= os_getenv "plantuml");
  (42, "html_static_path" ::= List_ [Str "_static"]);
  (43, "html_context" ::=
         Dict_ [(Str "css_files",
                 List_ [Str "_static/theme_overrides.css"])])
].

(** ** Running a script *)

(** Statements run top to bottom; the first exception ends the run. *)
Definition exec (script : list (N * stmt)) : stmt := suite (snd <$> script).

(** The module's namespace before the first statement. *)
Definition init : State := {| globals := ∅; trace := [] |}.

Definition run (script : list (N * stmt)) (w : World) : result unit * State :=
  exec script w init.

(** The script with the statement of line [n] taken out. *)
Definition without_line (n : N) (script : list (N * stmt)) : list (N * stmt) :=
  List.filter (λ ls, negb (ls.1 =? n)) script.

(** What an execution of the script leaves behind. *)
Definition outcome (w : World) : result unit := (run conf_py w).1.
Definition config (w : World) : gmap string value := globals (run conf_py w).2.
Definition events (w : World) : list event := trace (run conf_py w).2.

Definition completes (w : World) : Prop := outcome w = Ok tt.

(** ** Reading the trace *)

Definition bindings (t : list event) : list (string * value) :=
  omap (λ e, match e with EBind x v => Some (x, v) | _ => None end) t.

(** The operations on the script's surroundings: a module import (it
    loads the module, which reads files), the operations on a file, a
    lookup in the environment.  Binding a name is none. *)
Definition is_io (e : event) : bool :=
  match e with
  | EImport _ | EOpen _ | ERead _ | EClose _ | EGetenv _ => true
  | EBind _ _ => false
  end.

Definition io_events (t : list event) : list event := List.filter is_io t.

Definition reads (t : list event) : list string :=
  omap (λ e, match e with ERead p => Some p | _ => None end) t.

Definition lookups (t : list event) : list string :=
  omap (λ e, match e with EGetenv k => Some k | _ => None end) t.

(** The namespace after the first [k] bindings of a trace. *)
Definition replay (bs : list (string * value)) : gmap string value :=
  foldl (λ m xv, <[xv.1 := xv.2]> m) ∅ bs.

Definition globals_after (k : nat) (t : list event) : gmap string value :=
  replay (take k (bindings t)).

(** ** The executions of conf.py, case by case *)

(** The trace up to the attempt to import [recommonmark.parser]. *)
Definition trace_importing : list event :=
  [EImport "sys"; EBind "sys" (VModule "sys");
   EImport "os"; EBind "os" (VModule "os");
   EImport "recommonmark.parser"].

(** The trace up to the attempt to open ['../VERSION']. *)
Definition trace_opening : list event :=
  trace_importing ++
  [EBind "CommonMarkParser" (VImported "recommonmark.parser" "CommonMarkParser");
   EBind "project" (VStr (u "OpenDXL Java SDK"));
   EBind "copyright" (VStr (u "2019, McAfee LLC"));
   EOpen "../VERSION"].

(** The trace up to the attempt to read the opened file. *)
Definition trace_reading : list event :=
  trace_opening ++
  [EBind "content_file" (VFile "../VERSION"); ERead "../VERSION"].

(** The trace of a read that fails: the [with] statement closes the file. *)
Definition trace_undecodable : list event :=
  trace_reading ++ [EClose "../VERSION"].

(** Lines 9 to 40, where [read()] returned [s] and [os.getenv] returned
    [pl]. *)
Definition trace_settings (s : pystr) (pl : value) : list event :=
  [EBind "VERSION" (VStr s); EClose "../VERSION";
   EBind "version" (VStr s); EBind "release" (VStr s);
   EBind "needs_sphinx" (VStr (u "1.0"));
   EBind "master_doc" (VStr (u "index"));
   EBind "pygments_style" (VStr (u "tango"));
   EBind "add_function_parentheses" (VBool true);
   EBind "extensions"
     (VList [VStr (u "sphinx.ext.autodoc"); VStr (u "javasphinx");
             VStr (u "sphinxcontrib.plantuml")]);
   EBind "templates_path" (VList [VStr (u "_templates")]);
   EBind "exclude_trees" (VList [VStr (u ".build")]);
   EBind "source_suffix" (VList [VStr (u ".rst"); VStr (u ".md")]);
   EBind "source_encoding" (VStr (u "utf-8-sig"));
   EBind "source_parsers"
     (VDict [(VStr (u ".md"),
              VImported "recommonmark.parser" "CommonMarkParser")]);
   EBind "html_theme" (VStr (u "sphinx_rtd_theme"));
   EBind "html_short_title" (VStr (u "my-project"));
   EBind "htmlhelp_basename" (VStr (u "my-project-doc"));
   EBind "html_use_index" (VBool true);
   EBind "html_show_sourcelink" (VBool false);
   EBind "html_static_path" (VList [VStr (u "_static")]);
   EGetenv "plantuml"; EBind "plantuml" pl].

Definition trace_line_42 : list event :=
  [EBind "html_static_path" (VList [VStr (u "_static")])].

Definition trace_line_43 : list event :=
  [EBind "html_context"
     (VDict [(VStr (u "css_files"),
              VList [VStr (u "_static/theme_overrides.css")])])].

(** The trace of a run to the end. *)
Definition trace_complete (s : pystr) (pl : value) : list event :=
  trace_reading ++ trace_settings s pl ++ trace_line_42 ++ trace_line_43.

(** The same for the script without its line 42. *)
Definition trace_complete_without_42 (s : pystr) (pl : value) : list event :=
  trace_reading ++ trace_settings s pl ++ trace_line_43.

(** The state a trace leads to from the empty namespace. *)
Definition state_of (t : list event) : State :=
  {| globals := replay (bindings t); trace := t |}.

(** How a run ends, by what the world holds; [done] is the trace of a run
    that reaches the end. *)
Definition cases (done : pystr → value → list event) (w : World) : result unit * State :=
  match site_packages w !! "recommonmark.parser" with
  | None =>
    (Raise (ModuleNotFoundError "recommonmark.parser"), state_of trace_importing)
  | Some names =>
    if bool_decide ("CommonMarkParser" ∈ names) then
      match filesystem w !! "../VERSION" with
      | None => (Raise (FileNotFoundError "../VERSION"), state_of trace_opening)
      | Some Directory =>
        (Raise (IsADirectoryError "../VERSION"), state_of trace_opening)
      | Some (RegularFile false _) =>
        (Raise (PermissionError "../VERSION"), state_of trace_opening)
      | Some (RegularFile true bs) =>
        match read_text (preferred_encoding w) bs with
        | None =>
          (Raise (UnicodeDecodeError (preferred_encoding w)),
           state_of trace_undecodable)
        | Some s => (Ok tt, state_of (done s (getenv w "plantuml")))
        end
      end
    else
      (Raise (ImportError "recommonmark.parser" "CommonMarkParser"),
       state_of trace_importing)
  end.

Definition conf_py_cases : World → result unit * State := cases trace_complete.

(** ** The worlds in which the script gets through line 3 *)

Definition importable (w : World) : Prop :=
  ∃ names, site_packages w !! "recommonmark.parser" = Some names
           ∧ "CommonMarkParser" ∈ names.

(** The ways a run can end in an exception. *)
Definition fails_with (w : World) (e : exn) : Prop :=
  (site_packages w !! "recommonmark.parser" = None
   ∧ e = ModuleNotFoundError "recommonmark.parser")
  ∨ (∃ names, site_packages w !! "recommonmark.parser" = Some names
              ∧ ("CommonMarkParser" ∉ names)
              ∧ e = ImportError "recommonmark.parser" "CommonMarkParser")
  ∨ (importable w ∧ filesystem w !! "../VERSION" = None
     ∧ e = FileNotFoundError "../VERSION")
  ∨ (importable w ∧ filesystem w !! "../VERSION" = Some Directory
     ∧ e = IsADirectoryError "../VERSION")
  ∨ (importable w
     ∧ (∃ bs, filesystem w !! "../VERSION" = Some (RegularFile false bs))
     ∧ e = PermissionError "../VERSION")
  ∨ (importable w
     ∧ (∃ bs, filesystem w !! "../VERSION" = Some (RegularFile true bs)
              ∧ read_text (preferred_encoding w) bs = None)
     ∧ e = UnicodeDecodeError (preferred_encoding w)).

(** The one file read, with its open and close, and the one lookup in
    the environment. *)
Definition version_read_and_lookup : list event :=
  [EOpen "../VERSION"; ERead "../VERSION"; EClose "../VERSION";
   EGetenv "plantuml"].

(** The operations of a run to the end: the three imports of lines 2-3,
    then the read and the lookup. *)
Definition io_complete : list event :=
  [EImport "sys"; EImport "os"; EImport "recommonmark.parser"]
  ++ version_read_and_lookup.

(** ** Some worlds *)

Definition recommonmark : gmap string (list string) :=
  {[ "recommonmark.parser" := ["CommonMarkParser"] ]}.

(** A machine with recommonmark installed, a readable ['../VERSION'] of
    the given bytes, the given preferred encoding and environment. *)
Definition machine (enc : encoding) (bs : list byte) (env : gmap string pystr) : World :=
  {| site_packages := recommonmark;
     filesystem := {[ "../VERSION" := RegularFile true bs ]};
     preferred_encoding := enc;
     environ := env |}.

(** ["0.2.6\n"] *)
Definition version_0_2_6 : list byte := list_byte_of_string "0.2.6" ++ [x0a].

(** ["1.0\r\n"], as a checkout with Windows line endings leaves it. *)
Definition version_crlf : list byte := list_byte_of_string "1.0" ++ [x0d; x0a].

(** The two bytes of U+00E9 in UTF-8. *)
Definition e_acute : list byte := [xc3; xa9].

(** The same machine without recommonmark. *)
Definition bare_machine : World :=
  {| site_packages := ∅;
     filesystem := {[ "../VERSION" := RegularFile true version_0_2_6 ]};
     preferred_encoding := UTF_8;
     environ := ∅ |}.

(** ** The specification's sentences, as they are written *)

(** "a version file path ([../VERSION]) read as UTF-8 text": whatever
    bytes [bs] the file holds, the three names hold their UTF-8 text. *)
Definition read_as_utf_8 (w : World) : Prop :=
  ∀ bs, filesystem w !! "../VERSION" = Some (RegularFile true bs) →
    ∃ s, utf_8_decode bs = Some s
         ∧ config w !! "VERSION" = Some (VStr s)
         ∧ config w !! "version" = Some (VStr s)
         ∧ config w !! "release" = Some (VStr s).

(** "The only failure mode is the version-file read failing to find the
    file". *)
Definition only_file_not_found (w : World) : Prop :=
  ∀ e, outcome w = Raise e → e = FileNotFoundError "../VERSION".

(** "the derived version string is non-empty" *)
Definition version_non_empty (w : World) : Prop :=
  completes w →
  ∀ s, config w !! "version" = Some (VStr s) ∨ config w !! "release" = Some (VStr s) →
       s ≠ [].

(** The script runs to the end whenever the file exists and is readable. *)
Definition completes_when_readable (w : World) : Prop :=
  (∃ bs, filesystem w !! "../VERSION" = Some (RegularFile true bs)) →
  completes w.

(** "one file read", and "no blocking operations beyond" it and one
    lookup in the environment: a run to the end reads ['../VERSION'] once,
    and no run does any other operation. *)
Definition exactly_one_read (w : World) : Prop :=
  (completes w → reads (events w) = ["../VERSION"])
  ∧ (io_events (events w) `sublist_of` version_read_and_lookup).

(** [version] and [release] hold the file's text as it is. *)
Definition raw_content (w : World) : Prop :=
  completes w →
  ∀ bs, filesystem w !! "../VERSION" = Some (RegularFile true bs) →
    ∃ s, decode (preferred_encoding w) bs = Some s
         ∧ config w !! "version" = Some (VStr s)
         ∧ config w !! "release" = Some (VStr s).

(** The configuration is a function of the file's content and of the
    environment variable alone. *)
Definition two_inputs (w1 w2 : World) : Prop :=
  filesystem w1 !! "../VERSION" = filesystem w2 !! "../VERSION" →
  environ w1 !! "plantuml" = environ w2 !! "plantuml" →
  config w1 = config w2.

(** ** More readings of a trace *)

(** The files bound to a name by a [with open(...) as] that succeeded. *)
Definition opened (t : list event) : list string :=
  omap (λ e, match e with EBind _ (VFile p) => Some p | _ => None end) t.

(** The files closed. *)
Definition closes (t : list event) : list string :=
  omap (λ e, match e with EClose p => Some p | _ => None end) t.

(** The namespace that a list of bindings leads to from [m]. *)
Definition replay_from (m : gmap string value) (bs : list (string * value)) : gmap string value :=
  foldl (λ m xv, <[xv.1 := xv.2]> m) m bs.

(** The world with another environment. *)
Definition with_environ (env : gmap string pystr) (w : World) : World :=
  {| site_packages := site_packages w;
     filesystem := filesystem w;
     preferred_encoding := preferred_encoding w;
     environ := env |}.

(** The world with another preferred encoding. *)
Definition with_encoding (enc : encoding) (w : World) : World :=
  {| site_packages := site_packages w;
     filesystem := filesystem w;
     preferred_encoding := enc;
     environ := environ w |}.

(** The names a run to the end has bound. *)
Definition names_of_a_complete_run : list string :=
  ["sys"; "os"; "CommonMarkParser"; "project"; "copyright"; "content_file";
   "VERSION"; "version"; "release"; "needs_sphinx"; "master_doc";
   "pygments_style"; "add_function_parentheses"; "extensions";
   "templates_path"; "exclude_trees"; "source_suffix"; "source_encoding";
   "source_parsers"; "html_theme"; "html_short_title"; "htmlhelp_basename";
   "html_use_index"; "html_show_sourcelink"; "html_static_path"; "plantuml";
   "html_context"].

(** The names of lines 2-8: those bound before [VERSION]. *)
Definition names_before_version : list string :=
  ["sys"; "os"; "CommonMarkParser"; "project"; "copyright"; "content_file"].

(** The start namespace leaves the built-ins in sight: it binds neither
    [open] nor [__builtins__]. *)
Definition builtins_in_sight (st : State) : Prop :=
  globals st !! "open" = None ∧ globals st !! "__builtins__" = None.

(** The namespace a documentation build starts the script in. *)
Definition sphinx_namespace : State :=
  {| globals := {[ "__file__" := VStr (u "conf.py") ]}; trace := [] |}.

(** A file of 7-bit bytes only. *)
Definition is_ascii (bs : list byte) : Prop :=
  Forall (λ b, Byte.to_N b < 0x80) bs.

(** ** Symbolic execution *)

Ltac unfold_script :=
  cbv [run exec conf_py without_line List.filter negb fst N.eqb Pos.eqb
       suite seqM mbind M_bind mret M_ret assign import_ from_import
       with_open finally emit bind_name ask Str Name List_ Dict_ True_ False_
       eval_all eval_items os_getenv getenv read raise find_module
       fmap list_fmap snd init globals trace String.eqb Ascii.eqb Bool.eqb app].

(** Look a name up in a namespace built by the statements run so far. *)
Ltac step_lookup :=
  match goal with
  | |- context [@lookup string value ?T ?I ?k ?m] =>
    let v := eval vm_compute in (@lookup string value T I k m) in
    replace (@lookup string value T I k m) with v by (vm_compute; reflexivity)
  end.

Ltac run_script := unfold_script; repeat (step_lookup; unfold_script).

Ltac close_case := vm_compute; reflexivity.

Ltac run_by_cases :=
  match goal with
  | |- run _ ?w = cases _ ?w =>
    unfold cases; unfold_script;
    destruct (site_packages w !! "recommonmark.parser"); [|close_case];
    match goal with
    | |- context [bool_decide ?P] => destruct (bool_decide P)
    end; [|close_case];
    destruct (filesystem w !! "../VERSION") as [[|[|] ?]|] eqn:?;
      [close_case| |close_case|close_case];
    step_lookup; unfold_script;
    match goal with
    | H : filesystem w !! _ = _ |- _ => rewrite H
    end;
    match goal with
    | |- context [read_text ?e ?b] => destruct (read_text e b)
    end; [|close_case];
    run_script;
    destruct (environ w !! "plantuml"); close_case
  end.

(** One step of a search for an order-preserving embedding of lists. *)
Ltac sublist_step :=
  first [apply sublist_nil_l | apply sublist_skip | apply sublist_cons].

(** Each binding of a trace is still in force in the namespace the trace
    leads to. *)
Ltac settle :=
  match goal with
  | |- Forall _ (bindings ?t) =>
    let m := fresh "m" in
    set (m := replay _);
    vm_compute bindings;
    repeat (constructor; [subst m; vm_compute; reflexivity|]);
    constructor
  end.

(** The same steps for a run that starts in any namespace: the names
    bound so far are looked up by rewriting. *)
Ltac unfold_stmts :=
  cbv [exec conf_py suite seqM mbind M_bind mret M_ret assign import_
       from_import with_open finally emit bind_name ask Str Name List_ Dict_
       True_ False_ eval_all eval_items os_getenv getenv read raise find_module
       fmap list_fmap snd globals trace String.eqb Ascii.eqb Bool.eqb].

Ltac lookup_bound :=
  repeat (rewrite lookup_insert_ne by done); rewrite lookup_insert_eq.

Ltac same_state :=
  cbn [fst snd trace state_of]; vm_compute bindings;
  unfold replay_from; cbn [foldl fst snd];
  rewrite <- ?app_assoc; reflexivity.

(** Find an element in a list that is written out. *)
Ltac find_in_list :=
  repeat first [apply list_elem_of_here | apply list_elem_of_further].

Lemma run_conf_py (w : World) : run conf_py w = conf_py_cases w.
Proof. unfold conf_py_cases. run_by_cases. Qed.

Lemma run_without_line_42 (w : World) :
  run (without_line 42 conf_py) w = cases trace_complete_without_42 w.
Proof. run_by_cases. Qed.

(** ** Facts about the text layer *)

Lemma fmap_cons_Some_nonempty (c : N) (o : option pystr) (s : pystr) :
  cons c <$> o = Some s → s ≠ [].
Proof. destruct o; simpl; intros; simplify_eq; done. Qed.

Lemma utf_8_decode_nonempty (bs : list byte) (s : pystr) :
  utf_8_decode bs = Some s → (s = [] ↔ bs = []).
Proof.
  destruct bs as [|b0 r0]; simpl.
  - intros; simplify_eq; done.
  - intros H. split; [|done]. intros ->. exfalso.
    repeat case_match; simplify_eq;
      by eapply fmap_cons_Some_nonempty.
Qed.

Lemma ascii_decode_nonempty (bs : list byte) (s : pystr) :
  ascii_decode bs = Some s → (s = [] ↔ bs = []).
Proof.
  destruct bs as [|b0 r0]; simpl.
  - intros; simplify_eq; done.
  - intros H. split; [|done]. intros ->. exfalso.
    case_match; simplify_eq. by eapply fmap_cons_Some_nonempty.
Qed.

Lemma decode_nonempty (enc : encoding) (bs : list byte) (s : pystr) :
  decode enc bs = Some s → (s = [] ↔ bs = []).
Proof.
  destruct enc; simpl.
  - apply utf_8_decode_nonempty.
  - unfold latin_1_decode. intros; simplify_eq. by destruct bs.
  - apply ascii_decode_nonempty.
Qed.

Lemma universal_newlines_nonempty (s : pystr) :
  universal_newlines s = [] ↔ s = [].
Proof. destruct s as [|c t]; simpl; [done|]. by case_match. Qed.

Lemma universal_newlines_no_CR (s : pystr) :
  CR ∉ s → universal_newlines s = s.
Proof.
  induction s as [|c t IH]; simpl; [done|].
  intros Hnot. apply not_elem_of_cons in Hnot as [Hc Ht].
  destruct (N.eqb_spec c CR); [congruence|]. by rewrite IH.
Qed.

Lemma read_text_Some (enc : encoding) (bs : list byte) (s : pystr) :
  read_text enc bs = Some s ↔
  ∃ d, decode enc bs = Some d ∧ s = universal_newlines d.
Proof.
  unfold read_text. destruct (decode enc bs) as [d|]; simpl; split.
  - intros; simplify_eq; eauto.
  - intros (d' & ? & ->); by simplify_eq.
  - done.
  - by intros (? & ? & _).
Qed.

Lemma read_text_nonempty (enc : encoding) (bs : list byte) (s : pystr) :
  read_text enc bs = Some s → (s = [] ↔ bs = []).
Proof.
  intros H. apply read_text_Some in H as (d & Hd & ->).
  rewrite universal_newlines_nonempty. by apply (decode_nonempty enc).
Qed.

(** ** What a run to the end leaves in the namespace *)

Lemma completes_iff (w : World) :
  completes w ↔
  importable w ∧
  ∃ bs, filesystem w !! "../VERSION" = Some (RegularFile true bs)
        ∧ is_Some (read_text (preferred_encoding w) bs).
Proof.
  unfold completes, outcome, importable. rewrite run_conf_py.
  unfold conf_py_cases, cases. split.
  - intros H. repeat case_match; cbn [fst] in H; simplify_eq.
    split; [eexists; split; [done|by eapply bool_decide_eq_true]|].
    eauto.
  - intros ((names & -> & Hin) & bs & -> & s & ->).
    by rewrite bool_decide_true.
Qed.

Lemma run_complete (w : World) (bs : list byte) (s : pystr) :
  importable w →
  filesystem w !! "../VERSION" = Some (RegularFile true bs) →
  read_text (preferred_encoding w) bs = Some s →
  run conf_py w = (Ok tt, state_of (trace_complete s (getenv w "plantuml"))).
Proof.
  intros (names & Hsp & Hin) Hfs Hs. rewrite run_conf_py.
  unfold conf_py_cases, cases. by rewrite Hsp, bool_decide_true, Hfs, Hs.
Qed.

Lemma completes_inv (w : World) :
  completes w →
  ∃ bs s, importable w
    ∧ filesystem w !! "../VERSION" = Some (RegularFile true bs)
    ∧ read_text (preferred_encoding w) bs = Some s
    ∧ run conf_py w = (Ok tt, state_of (trace_complete s (getenv w "plantuml"))).
Proof.
  intros (Himp & bs & Hfs & s & Hs)%completes_iff.
  exists bs, s. eauto using run_complete.
Qed.

(** The settings of a completed run, read off its trace. *)
Lemma settings_complete (s : pystr) (pl : value) :
  let m := replay (bindings (trace_complete s pl)) in
  m !! "VERSION" = Some (VStr s)
  ∧ m !! "version" = Some (VStr s)
  ∧ m !! "release" = Some (VStr s)
  ∧ m !! "plantuml" = Some pl
  ∧ m !! "html_theme" = Some (VStr (u "sphinx_rtd_theme"))
  ∧ m !! "extensions" =
      Some (VList [VStr (u "sphinx.ext.autodoc"); VStr (u "javasphinx");
                   VStr (u "sphinxcontrib.plantuml")])
  ∧ m !! "source_suffix" = Some (VList [VStr (u ".rst"); VStr (u ".md")])
  ∧ m !! "source_parsers" =
      Some (VDict [(VStr (u ".md"),
                    VImported "recommonmark.parser" "CommonMarkParser")])
  ∧ m !! "html_static_path" = Some (VList [VStr (u "_static")]).
Proof. repeat split; vm_compute; reflexivity. Qed.

Lemma config_complete (w : World) (bs : list byte) (s : pystr) :
  importable w →
  filesystem w !! "../VERSION" = Some (RegularFile true bs) →
  read_text (preferred_encoding w) bs = Some s →
  config w = replay (bindings (trace_complete s (getenv w "plantuml")))
  ∧ events w = trace_complete s (getenv w "plantuml").
Proof.
  intros Himp Hfs Hs. unfold config, events.
  by rewrite (run_complete w bs s).
Qed.

(** ** The version string *)

(** C1 (amended).  In a run that gets to line 8, the file is read as text
    in the platform's preferred encoding (the call of [open] names none),
    with line endings translated; when that read returns a string [s], the
    script completes and [s] is bound, unchanged, to [VERSION], then to
    [version], then to [release].  Where the platform prefers UTF-8, [s]
    is the UTF-8 text of the file. *)
Theorem version_is_text_read (w : World) (bs : list byte) (s : pystr) :
  importable w →
  filesystem w !! "../VERSION" = Some (RegularFile true bs) →
  read_text (preferred_encoding w) bs = Some s →
  completes w
  ∧ config w !! "VERSION" = Some (VStr s)
  ∧ config w !! "version" = Some (VStr s)
  ∧ config w !! "release" = Some (VStr s)
  ∧ [("VERSION", VStr s); ("version", VStr s); ("release", VStr s)]
      `sublist_of` bindings (events w)
  ∧ (preferred_encoding w = UTF_8 →
     ∃ d, utf_8_decode bs = Some d ∧ s = universal_newlines d).
Proof.
  intros Himp Hfs Hs.
  destruct (config_complete w bs s Himp Hfs Hs) as [Hc He].
  destruct (settings_complete s (getenv w "plantuml")) as (H1 & H2 & H3 & _).
  split; [|rewrite Hc, He; repeat split; try done].
  - apply completes_iff; eauto.
  - generalize (getenv w "plantuml"); intros pl.
    vm_compute bindings. repeat sublist_step.
  - intros Henc. rewrite Henc in Hs. by apply read_text_Some in Hs.
Qed.

Lemma version_is_text_read_witness :
  completes (machine UTF_8 version_0_2_6 ∅)
  ∧ config (machine UTF_8 version_0_2_6 ∅) !! "VERSION"
    = Some (VStr (u "0.2.6" ++ [LF]))
  ∧ config (machine UTF_8 version_0_2_6 ∅) !! "version"
    = Some (VStr (u "0.2.6" ++ [LF]))
  ∧ config (machine UTF_8 version_0_2_6 ∅) !! "release"
    = Some (VStr (u "0.2.6" ++ [LF]))
  ∧ [("VERSION", VStr (u "0.2.6" ++ [LF])); ("version", VStr (u "0.2.6" ++ [LF]));
     ("release", VStr (u "0.2.6" ++ [LF]))]
      `sublist_of` bindings (events (machine UTF_8 version_0_2_6 ∅))
  ∧ (preferred_encoding (machine UTF_8 version_0_2_6 ∅) = UTF_8 →
     ∃ d, utf_8_decode version_0_2_6 = Some d
          ∧ u "0.2.6" ++ [LF] = universal_newlines d).
Proof.
  apply (version_is_text_read (machine UTF_8 version_0_2_6 ∅) version_0_2_6).
  - exists ["CommonMarkParser"]. split; [reflexivity|]. by apply list_elem_of_here.
  - reflexivity.
  - vm_compute. reflexivity.
Defined.

(** On a machine that prefers Latin-1, the two bytes of "é" in UTF-8 are
    read as the two characters U+00C3 U+00A9. *)
Lemma latin_1_machine_not_utf_8 : ¬ read_as_utf_8 (machine Latin_1 e_acute ∅).
Proof.
  intros H. destruct (H e_acute) as (s & Hs & Hv & _); [reflexivity|].
  vm_compute in Hs. vm_compute in Hv. congruence.
Qed.

(** ** Failures *)

Lemma importable_dec (w : World) (names : list string) :
  site_packages w !! "recommonmark.parser" = Some names →
  bool_decide ("CommonMarkParser" ∈ names) = true →
  importable w.
Proof.
  intros Hsp Hin. exists names. split; [done|].
  by apply bool_decide_eq_true in Hin.
Qed.

Lemma outcome_Raise (w : World) (e : exn) :
  outcome w = Raise e ↔ fails_with w e.
Proof.
  unfold outcome, fails_with. rewrite run_conf_py.
  unfold conf_py_cases, cases. split.
  - intros H.
    destruct (site_packages w !! "recommonmark.parser") as [names|] eqn:Hsp;
      [|cbn [fst] in H; simplify_eq; by left].
    destruct (bool_decide ("CommonMarkParser" ∈ names)) eqn:Hin;
      [|cbn [fst] in H; simplify_eq; right; left; exists names;
        by apply bool_decide_eq_false in Hin].
    pose proof (importable_dec w names Hsp Hin) as Himp.
    destruct (filesystem w !! "../VERSION") as [[|[|] bs]|] eqn:Hfs;
      cbn [fst] in H; simplify_eq.
    + do 3 right; left; done.
    + destruct (read_text (preferred_encoding w) bs) eqn:Hs;
        cbn [fst] in H; simplify_eq.
      do 5 right. eauto.
    + do 4 right; left. eauto.
    + do 2 right; left; done.
  - intros [(-> & ->)|[(names & -> & Hin & ->)|[((names & -> & Hin) & -> & ->)|
      [((names & -> & Hin) & -> & ->)|[((names & -> & Hin) & (bs & ->) & ->)|
       ((names & -> & Hin) & (bs & -> & ->) & ->)]]]]];
      rewrite ?bool_decide_true, ?bool_decide_false by done; done.
Qed.

Lemma events_Raise (w : World) (e : exn) :
  outcome w = Raise e →
  (events w = trace_importing ∨ events w = trace_opening
   ∨ events w = trace_undecodable)
  ∧ config w = replay (bindings (events w)).
Proof.
  unfold outcome, events, config. rewrite run_conf_py.
  unfold conf_py_cases, cases.
  repeat case_match; cbn [fst snd globals trace state_of];
    intros; simplify_eq; eauto.
Qed.

(** C2 (amended).  The script handles no error.  A run fails exactly when
    the import of line 3 fails (the module or the name is missing), when
    ['../VERSION'] cannot be opened (it is missing, a directory, or not
    readable), or when its bytes do not decode in the platform's preferred
    encoding.  The exception ends the run at that statement: nothing is
    retried (one import, one open at most), no statement after it runs, and
    [version] is left unbound. *)
Theorem failure_modes (w : World) (e : exn) :
  (outcome w = Raise e ↔ fails_with w e)
  ∧ (outcome w = Raise e →
     (events w = trace_importing ∨ events w = trace_opening
      ∨ events w = trace_undecodable)
     ∧ config w !! "version" = None
     ∧ config w !! "html_theme" = None).
Proof.
  split; [apply outcome_Raise|].
  intros H. destruct (events_Raise w e H) as [Hev ->].
  split; [done|].
  destruct Hev as [-> | [-> | ->]]; split; vm_compute; reflexivity.
Qed.

Lemma failure_modes_witness :
  (events bare_machine = trace_importing ∨ events bare_machine = trace_opening
   ∨ events bare_machine = trace_undecodable)
  ∧ config bare_machine !! "version" = None
  ∧ config bare_machine !! "html_theme" = None.
Proof.
  apply (proj2 (failure_modes bare_machine
                  (ModuleNotFoundError "recommonmark.parser"))).
  vm_compute. reflexivity.
Defined.

(** Without recommonmark the run fails at line 3, although ['../VERSION']
    is there and readable. *)
Lemma bare_machine_not_file_not_found : ¬ only_file_not_found bare_machine.
Proof.
  intros H.
  specialize (H (ModuleNotFoundError "recommonmark.parser")).
  assert (outcome bare_machine = Raise (ModuleNotFoundError "recommonmark.parser"))
    as Hout by (vm_compute; reflexivity).
  specialize (H Hout). discriminate H.
Qed.

(** C3 (amended).  After a run to the end, [version] and [release] hold
    the same string, and it is empty exactly when ['../VERSION'] is empty:
    the script does not check it. *)
Theorem version_empty_iff (w : World) :
  completes w →
  ∃ bs s, filesystem w !! "../VERSION" = Some (RegularFile true bs)
    ∧ config w !! "version" = Some (VStr s)
    ∧ config w !! "release" = Some (VStr s)
    ∧ (s = [] ↔ bs = []).
Proof.
  intros (bs & s & Himp & Hfs & Hs & Hrun)%completes_inv.
  exists bs, s. unfold config. rewrite Hrun. cbn [snd globals state_of].
  destruct (settings_complete s (getenv w "plantuml")) as (_ & H2 & H3 & _).
  repeat split; try done; by apply (read_text_nonempty _ _ _ Hs).
Qed.

Lemma version_empty_iff_witness :
  ∃ bs s, filesystem (machine UTF_8 [] ∅) !! "../VERSION" = Some (RegularFile true bs)
    ∧ config (machine UTF_8 [] ∅) !! "version" = Some (VStr s)
    ∧ config (machine UTF_8 [] ∅) !! "release" = Some (VStr s)
    ∧ (s = [] ↔ bs = []).
Proof.
  apply (version_empty_iff (machine UTF_8 [] ∅)).
  vm_compute. reflexivity.
Defined.

(** With an empty ['../VERSION'] the run completes and [version] is the
    empty string. *)
Lemma empty_file_empty_version : ¬ version_non_empty (machine UTF_8 [] ∅).
Proof.
  intros H.
  apply (H ltac:(vm_compute; reflexivity) []); [|reflexivity].
  left. vm_compute. reflexivity.
Qed.

(** C4 (amended).  The script runs to the end without raising exactly when
    [recommonmark.parser] can be imported and has [CommonMarkParser],
    ['../VERSION'] exists and is a readable file, and its bytes decode in
    the platform's preferred encoding. *)
Theorem completes_exactly_when (w : World) :
  completes w ↔
  importable w ∧
  ∃ bs, filesystem w !! "../VERSION" = Some (RegularFile true bs)
        ∧ is_Some (read_text (preferred_encoding w) bs).
Proof. apply completes_iff. Qed.

Lemma completes_exactly_when_witness : completes (machine UTF_8 version_0_2_6 ∅).
Proof.
  apply (proj2 (completes_exactly_when (machine UTF_8 version_0_2_6 ∅))).
  split.
  - exists ["CommonMarkParser"]. split; [reflexivity|]. by apply list_elem_of_here.
  - exists version_0_2_6. split; [reflexivity|]. vm_compute. by eexists.
Defined.

(** ['../VERSION'] exists and is readable, and the run fails all the same:
    recommonmark is not installed. *)
Lemma readable_but_fails : ¬ completes_when_readable bare_machine.
Proof.
  intros H.
  assert (completes bare_machine) as Hc by (apply H; by eexists).
  vm_compute in Hc. discriminate Hc.
Qed.

(** ** The operations of a run *)

Lemma suite_app (b1 b2 : list stmt) (w : World) (st : State) :
  suite (b1 ++ b2) w st =
  match suite b1 w st with
  | (Ok _, st') => suite b2 w st'
  | (Raise e, st') => (Raise e, st')
  end.
Proof.
  revert st. induction b1 as [|s b1 IH]; intros st; [done|].
  cbn [app suite]. unfold seqM, mbind, M_bind.
  destruct (s w st) as [[[]|e] st']; [apply IH|done].
Qed.

Lemma exec_app (script1 script2 : list (N * stmt)) (w : World) (st : State) :
  exec (script1 ++ script2) w st =
  match exec script1 w st with
  | (Ok _, st') => exec script2 w st'
  | (Raise e, st') => (Raise e, st')
  end.
Proof. unfold exec. rewrite fmap_app. apply suite_app. Qed.

Lemma events_cases (w : World) :
  config w = replay (bindings (events w))
  ∧ (events w = trace_importing ∨ events w = trace_opening
     ∨ events w = trace_undecodable
     ∨ completes w ∧ ∃ s pl, events w = trace_complete s pl).
Proof.
  unfold completes, outcome, events, config. rewrite run_conf_py.
  unfold conf_py_cases, cases.
  repeat case_match; cbn [fst snd globals trace state_of]; split; eauto 10.
Qed.

Lemma completes_events (w : World) :
  completes w → ∃ s pl, events w = trace_complete s pl.
Proof.
  intros (bs & s & _ & _ & _ & Hrun)%completes_inv.
  unfold events. rewrite Hrun. eauto.
Qed.

(** C5 (amended).  Statements run one after the other, top to bottom.
    The three module imports of lines 2-3 are operations on the script's
    surroundings too (an import loads the module from files).  Beyond
    them, in any run, there is nothing but a beginning of: open
    ['../VERSION'], read it, close it, look [plantuml] up in the
    environment; so the file is read at most once, by the one read of
    line 9, and no other file or environment operation is made by the
    script's statements.  A run to the end does the three imports, then
    exactly one read, then exactly one lookup. *)
Theorem io_of_a_run (w : World) :
  (io_events (events w) `prefix_of` io_complete)
  ∧ (List.length (reads (events w)) ≤ 1)%nat
  ∧ (List.length (lookups (events w)) ≤ 1)%nat
  ∧ (completes w →
     io_events (events w) = io_complete
     ∧ reads (events w) = ["../VERSION"]
     ∧ lookups (events w) = ["plantuml"])
  ∧ (∀ script1 script2 st,
       exec (script1 ++ script2) w st =
       match exec script1 w st with
       | (Ok _, st') => exec script2 w st'
       | (Raise e, st') => (Raise e, st')
       end).
Proof.
  repeat split.
  - destruct (events_cases w) as [_ [-> | [-> | [-> | [_ (s & pl & ->)]]]]];
      vm_compute; eexists; reflexivity.
  - destruct (events_cases w) as [_ [-> | [-> | [-> | [_ (s & pl & ->)]]]]];
      vm_compute; lia.
  - destruct (events_cases w) as [_ [-> | [-> | [-> | [_ (s & pl & ->)]]]]];
      vm_compute; lia.
  - apply completes_events in H as (s & pl & ->). vm_compute. reflexivity.
  - apply completes_events in H as (s & pl & ->). vm_compute. reflexivity.
  - apply completes_events in H as (s & pl & ->). vm_compute. reflexivity.
  - intros. apply exec_app.
Qed.

Lemma io_of_a_run_witness :
  io_events (events (machine UTF_8 version_0_2_6 ∅)) = io_complete
  ∧ reads (events (machine UTF_8 version_0_2_6 ∅)) = ["../VERSION"]
  ∧ lookups (events (machine UTF_8 version_0_2_6 ∅)) = ["plantuml"].
Proof.
  apply (io_of_a_run (machine UTF_8 version_0_2_6 ∅)).
  vm_compute. reflexivity.
Defined.

(** A run to the end does more than one read and one lookup: it imports
    three modules first. *)
Lemma imports_are_operations :
  ¬ exactly_one_read (machine UTF_8 version_0_2_6 ∅).
Proof.
  intros [_ H].
  assert (EImport "sys" ∈ version_read_and_lookup) as Hin.
  { eapply elem_of_sublist; [|exact H]. vm_compute. apply list_elem_of_here. }
  unfold version_read_and_lookup in Hin.
  repeat (apply elem_of_cons in Hin as [Hin|Hin]; [discriminate Hin|]).
  by apply elem_of_nil in Hin.
Qed.

(** ** The settings *)

(** C6.  After a run to the end, [html_theme] is ['sphinx_rtd_theme'],
    [extensions] is the list of 'sphinx.ext.autodoc', 'javasphinx' and
    'sphinxcontrib.plantuml', [source_suffix] is ['.rst', '.md'],
    [source_parsers] maps '.md' to the [CommonMarkParser] of
    [recommonmark.parser], and [html_static_path] is ['_static']. *)
Theorem configuration_surface (w : World) :
  completes w →
  config w !! "html_theme" = Some (VStr (u "sphinx_rtd_theme"))
  ∧ config w !! "extensions" =
      Some (VList [VStr (u "sphinx.ext.autodoc"); VStr (u "javasphinx");
                   VStr (u "sphinxcontrib.plantuml")])
  ∧ config w !! "source_suffix" = Some (VList [VStr (u ".rst"); VStr (u ".md")])
  ∧ config w !! "source_parsers" =
      Some (VDict [(VStr (u ".md"),
                    VImported "recommonmark.parser" "CommonMarkParser")])
  ∧ config w !! "html_static_path" = Some (VList [VStr (u "_static")]).
Proof.
  intros (bs & s & _ & _ & _ & Hrun)%completes_inv.
  unfold config. rewrite Hrun. cbn [snd globals state_of].
  by destruct (settings_complete s (getenv w "plantuml"))
    as (_ & _ & _ & _ & ? & ? & ? & ? & ?).
Qed.

Lemma configuration_surface_witness :
  config (machine UTF_8 version_0_2_6 ∅) !! "html_theme"
    = Some (VStr (u "sphinx_rtd_theme"))
  ∧ config (machine UTF_8 version_0_2_6 ∅) !! "extensions" =
      Some (VList [VStr (u "sphinx.ext.autodoc"); VStr (u "javasphinx");
                   VStr (u "sphinxcontrib.plantuml")])
  ∧ config (machine UTF_8 version_0_2_6 ∅) !! "source_suffix"
    = Some (VList [VStr (u ".rst"); VStr (u ".md")])
  ∧ config (machine UTF_8 version_0_2_6 ∅) !! "source_parsers" =
      Some (VDict [(VStr (u ".md"),
                    VImported "recommonmark.parser" "CommonMarkParser")])
  ∧ config (machine UTF_8 version_0_2_6 ∅) !! "html_static_path"
    = Some (VList [VStr (u "_static")]).
Proof.
  apply (configuration_surface (machine UTF_8 version_0_2_6 ∅)).
  vm_compute. reflexivity.
Defined.

(** ** The history of the namespace *)

Lemma replay_snoc (bs : list (string * value)) (x : string) (v : value) :
  replay (bs ++ [(x, v)]) = <[x := v]> (replay bs).
Proof. unfold replay. by rewrite foldl_snoc. Qed.

Lemma replay_lookup_Some (bs : list (string * value)) (x : string) (v : value) :
  replay bs !! x = Some v → (x, v) ∈ bs.
Proof.
  induction bs as [|[y vy] bs IH] using rev_ind.
  - unfold replay; simpl. by rewrite lookup_empty.
  - rewrite replay_snoc, elem_of_app, list_elem_of_singleton.
    destruct (decide (y = x)) as [->|Hne].
    + rewrite lookup_insert_eq. intros; simplify_eq. by right.
    + rewrite lookup_insert_ne by done. intros; left. by apply IH.
Qed.

Lemma replay_lookup_is_Some (bs : list (string * value)) (x : string) (v : value) :
  (x, v) ∈ bs → is_Some (replay bs !! x).
Proof.
  induction bs as [|[y vy] bs IH] using rev_ind.
  - by intros ?%elem_of_nil.
  - rewrite replay_snoc, elem_of_app, list_elem_of_singleton.
    destruct (decide (y = x)) as [->|Hne].
    + rewrite lookup_insert_eq. eauto.
    + rewrite lookup_insert_ne by done. intros [?|?]; [by apply IH|].
      simplify_eq.
Qed.

(** When every binding of a list is still in force at the end, the
    namespace only grows along the list. *)
Lemma replay_monotone (bs : list (string * value)) :
  Forall (λ xv, replay bs !! xv.1 = Some xv.2) bs →
  ∀ (i j : nat) (x : string) (v : value),
    (i ≤ j)%nat →
    replay (take i bs) !! x = Some v → replay (take j bs) !! x = Some v.
Proof.
  intros Hall i j x v Hij Hi. rewrite Forall_forall in Hall.
  apply replay_lookup_Some in Hi.
  assert ((x, v) ∈ take j bs) as Hj.
  { apply elem_of_take in Hi as (k & Hk & Hlt).
    apply elem_of_take. exists k. split; [done|lia]. }
  destruct (replay_lookup_is_Some _ _ _ Hj) as [v' Hv'].
  rewrite Hv'. f_equal.
  apply replay_lookup_Some in Hv'.
  pose proof (Hall _ (elem_of_sublist _ _ _ Hj (sublist_take _ _))) as H1.
  pose proof (Hall _ (elem_of_sublist _ _ _ Hv' (sublist_take _ _))) as H2.
  simpl in H1, H2. congruence.
Qed.

Lemma bindings_settled (w : World) :
  Forall (λ xv, replay (bindings (events w)) !! xv.1 = Some xv.2)
         (bindings (events w)).
Proof.
  destruct (events_cases w) as [_ [-> | [-> | [-> | [_ (s & pl & ->)]]]]];
    settle.
Qed.

(** C7.  A module-level name, once bound, keeps its value to the end of
    the run: the namespace after the first [i] bindings agrees, on every
    name it binds, with the namespace after the first [j >= i] bindings,
    and the last of them is the final configuration.  Any two bindings of
    one name in a run bind equal values. *)
Theorem names_are_constants (w : World) :
  config w = globals_after (List.length (bindings (events w))) (events w)
  ∧ (∀ (i j : nat) (x : string) (v : value),
       (i ≤ j)%nat →
       globals_after i (events w) !! x = Some v →
       globals_after j (events w) !! x = Some v)
  ∧ (∀ (k1 k2 : nat) (x : string) (v1 v2 : value),
       bindings (events w) !! k1 = Some (x, v1) →
       bindings (events w) !! k2 = Some (x, v2) →
       v1 = v2).
Proof.
  pose proof (bindings_settled w) as Hall.
  split; [|split].
  - unfold globals_after. rewrite firstn_all. apply events_cases.
  - unfold globals_after. by apply replay_monotone.
  - intros k1 k2 x v1 v2 H1%list_elem_of_lookup_2 H2%list_elem_of_lookup_2.
    rewrite Forall_forall in Hall.
    pose proof (Hall _ H1) as E1. pose proof (Hall _ H2) as E2.
    simpl in E1, E2. congruence.
Qed.

Lemma names_are_constants_witness :
  globals_after 28 (events (machine UTF_8 version_0_2_6 ∅)) !! "html_static_path"
  = Some (VList [VStr (u "_static")]).
Proof.
  apply (proj1 (proj2 (names_are_constants (machine UTF_8 version_0_2_6 ∅)))
           25%nat 28%nat "html_static_path" (VList [VStr (u "_static")])).
  - lia.
  - vm_compute. reflexivity.
Defined.

(** ** Line endings *)

Lemma universal_newlines_trailing_LF_le (n : nat) (t : pystr) :
  (List.length t ≤ n)%nat →
  ∃ t', universal_newlines (t ++ [LF]) = t' ++ [LF].
Proof.
  revert t. induction n as [|n IH]; intros t Hlen.
  - destruct t; [|simpl in Hlen; lia]. by exists [].
  - destruct t as [|c t]; [by exists []|].
    cbn [app universal_newlines].
    destruct (c =? CR) eqn:Hc.
    + destruct t as [|d t]; cbn [app].
      * by exists [].
      * destruct (d =? LF).
        -- destruct (IH t) as [t' ->]; [simpl in *; lia|].
           by exists (LF :: t').
        -- destruct (IH (d :: t)) as [t' Ht']; [simpl in *; lia|].
           cbn [app] in Ht'. rewrite Ht'. by exists (LF :: t').
    + destruct (IH t) as [t' ->]; [simpl in *; lia|].
      by exists (c :: t').
Qed.

Lemma universal_newlines_trailing_LF (t : pystr) :
  ∃ t', universal_newlines (t ++ [LF]) = t' ++ [LF].
Proof. by apply (universal_newlines_trailing_LF_le (List.length t)). Qed.

(** C8 (amended).  After a run to the end, [version] equals [release], and
    both are the text of ['../VERSION'] (its bytes decoded in the
    platform's preferred encoding) with every ['\r\n'] and every lone
    ['\r'] turned into ['\n'].  Nothing is stripped: a text without
    carriage returns is bound as it is, and a text that ends in a newline
    gives a string that ends in a newline. *)
Theorem version_is_the_translated_text (w : World) :
  completes w →
  ∃ bs d, filesystem w !! "../VERSION" = Some (RegularFile true bs)
    ∧ decode (preferred_encoding w) bs = Some d
    ∧ config w !! "version" = Some (VStr (universal_newlines d))
    ∧ config w !! "release" = Some (VStr (universal_newlines d))
    ∧ (CR ∉ d → universal_newlines d = d)
    ∧ (∀ t, d = t ++ [LF] → ∃ t', universal_newlines d = t' ++ [LF]).
Proof.
  intros (bs & s & _ & Hfs & Hs & Hrun)%completes_inv.
  apply read_text_Some in Hs as (d & Hd & ->).
  exists bs, d. unfold config. rewrite Hrun. cbn [snd globals state_of].
  destruct (settings_complete (universal_newlines d) (getenv w "plantuml"))
    as (_ & H2 & H3 & _).
  repeat split; try done.
  - apply universal_newlines_no_CR.
  - intros t ->. apply universal_newlines_trailing_LF.
Qed.

Lemma version_is_the_translated_text_witness :
  ∃ bs d,
    filesystem (machine UTF_8 version_crlf ∅) !! "../VERSION"
      = Some (RegularFile true bs)
    ∧ decode (preferred_encoding (machine UTF_8 version_crlf ∅)) bs = Some d
    ∧ config (machine UTF_8 version_crlf ∅) !! "version"
      = Some (VStr (universal_newlines d))
    ∧ config (machine UTF_8 version_crlf ∅) !! "release"
      = Some (VStr (universal_newlines d))
    ∧ (CR ∉ d → universal_newlines d = d)
    ∧ (∀ t, d = t ++ [LF] → ∃ t', universal_newlines d = t' ++ [LF]).
Proof.
  apply (version_is_the_translated_text (machine UTF_8 version_crlf ∅)).
  vm_compute. reflexivity.
Defined.

(** A ['../VERSION'] that holds ["1.0\r\n"] gives the version ["1.0\n"]. *)
Lemma crlf_is_translated : ¬ raw_content (machine UTF_8 version_crlf ∅).
Proof.
  intros H.
  destruct (H ltac:(vm_compute; reflexivity) version_crlf)
    as (s & Hs & Hv & _); [reflexivity|].
  vm_compute in Hs. vm_compute in Hv. congruence.
Qed.

(** ** Line 42 *)

(** C9.  The script without its line 42 ends as the script does (it
    completes, or raises the same exception), with the same final
    namespace, name for name. *)
Theorem line_42_changes_nothing (w : World) :
  (run (without_line 42 conf_py) w).1 = outcome w
  ∧ globals (run (without_line 42 conf_py) w).2 = config w
  ∧ (∀ x, globals (run (without_line 42 conf_py) w).2 !! x = config w !! x)
  ∧ List.length (without_line 42 conf_py) = 25%nat
  ∧ List.length conf_py = 26%nat.
Proof.
  assert ((run (without_line 42 conf_py) w).1 = outcome w
          ∧ globals (run (without_line 42 conf_py) w).2 = config w) as [H1 H2].
  { unfold outcome, config. rewrite run_without_line_42, run_conf_py.
    unfold conf_py_cases, cases.
    repeat case_match; cbn [fst snd globals state_of]; split;
      first [reflexivity | vm_compute; reflexivity]. }
  repeat split; try done. intros x. by rewrite H2.
Qed.

(** ** What the configuration depends on *)

(** C10 (amended).  The final configuration is a function of three things
    outside the script: the bytes of ['../VERSION'], the platform's
    preferred encoding, and the value (or absence) of the environment
    variable [plantuml].  Two runs to the end that agree on the three end
    in the same namespace; and each of the three can change it. *)
Theorem configuration_depends_on (w1 w2 : World) :
  (completes w1 → completes w2 →
   filesystem w1 !! "../VERSION" = filesystem w2 !! "../VERSION" →
   preferred_encoding w1 = preferred_encoding w2 →
   environ w1 !! "plantuml" = environ w2 !! "plantuml" →
   config w1 = config w2)
  ∧ config (machine UTF_8 version_0_2_6 ∅) ≠ config (machine UTF_8 version_crlf ∅)
  ∧ config (machine UTF_8 e_acute ∅) ≠ config (machine Latin_1 e_acute ∅)
  ∧ config (machine UTF_8 version_0_2_6 ∅)
    ≠ config (machine UTF_8 version_0_2_6 {[ "plantuml" := u "plantuml.jar" ]}).
Proof.
  split; [|repeat split].
  - intros (bs1 & s1 & _ & Hfs1 & Hs1 & Hrun1)%completes_inv
           (bs2 & s2 & _ & Hfs2 & Hs2 & Hrun2)%completes_inv Hfs Henc Henv.
    unfold config. rewrite Hrun1, Hrun2. unfold getenv.
    rewrite Hfs1, Hfs2 in Hfs. simplify_eq.
    rewrite Henc in Hs1. rewrite Henv. congruence.
  - intros H. apply (f_equal (λ m, m !! "version")) in H.
    vm_compute in H. discriminate H.
  - intros H. apply (f_equal (λ m, m !! "version")) in H.
    vm_compute in H. discriminate H.
  - intros H. apply (f_equal (λ m, m !! "plantuml")) in H.
    vm_compute in H. discriminate H.
Qed.

Lemma configuration_depends_on_witness :
  config (machine UTF_8 version_0_2_6 ∅)
  = config (machine UTF_8 version_0_2_6 {[ "HOME" := u "/root" ]}).
Proof.
  apply (proj1 (configuration_depends_on
                  (machine UTF_8 version_0_2_6 ∅)
                  (machine UTF_8 version_0_2_6 {[ "HOME" := u "/root" ]}))).
  - vm_compute. reflexivity.
  - vm_compute. reflexivity.
  - reflexivity.
  - reflexivity.
  - vm_compute. reflexivity.
Defined.

(** The same bytes and the same environment, on a machine that prefers
    UTF-8 and on one that prefers Latin-1: [version] differs. *)
Lemma encoding_is_an_input :
  ¬ two_inputs (machine UTF_8 e_acute ∅) (machine Latin_1 e_acute ∅).
Proof.
  intros H. specialize (H eq_refl eq_refl).
  apply (f_equal (λ m, m !! "version")) in H.
  vm_compute in H. discriminate H.
Qed.

(** ** Further properties of the script *)

Lemma events_of_a_run (w : World) :
  events w = trace_importing ∨ events w = trace_opening
  ∨ events w = trace_undecodable
  ∨ completes w ∧ ∃ s, events w = trace_complete s (getenv w "plantuml").
Proof.
  destruct (events_cases w) as [_ [H | [H | [H | [Hc _]]]]]; eauto.
  do 3 right. split; [done|].
  apply completes_inv in Hc as (bs & s & _ & _ & _ & Hrun).
  exists s. unfold events. by rewrite Hrun.
Qed.

(** The [with] statement of lines 8-9 closes the file it opened, in every
    run: the files bound by [with open(...) as] and the files closed are
    the same.  This holds also when [read()] raises: a run that fails with
    a decoding error has closed ['../VERSION']. *)
Theorem opened_files_are_closed (w : World) :
  opened (events w) = closes (events w)
  ∧ (outcome w = Raise (UnicodeDecodeError (preferred_encoding w)) →
     closes (events w) = ["../VERSION"]).
Proof.
  split.
  - destruct (events_of_a_run w) as [-> | [-> | [-> | [_ (s & ->)]]]];
      [| | |unfold getenv; destruct (environ w !! "plantuml")];
      vm_compute; reflexivity.
  - intros H. apply outcome_Raise in H.
    destruct H as [(_ & ?)|[(? & _ & _ & ?)|[(_ & _ & ?)|[(_ & _ & ?)|
      [(_ & _ & ?)|(Himp & (bs & Hfs & Hs) & _)]]]]]; try discriminate.
    destruct Himp as (names & Hsp & Hin).
    unfold events. rewrite run_conf_py. unfold conf_py_cases, cases.
    rewrite Hsp, bool_decide_true, Hfs, Hs by done.
    vm_compute. reflexivity.
Qed.

Lemma opened_files_are_closed_witness :
  closes (events (machine ASCII e_acute ∅)) = ["../VERSION"].
Proof.
  apply (proj2 (opened_files_are_closed (machine ASCII e_acute ∅))).
  vm_compute. reflexivity.
Defined.

Lemma replay_plantuml (s : pystr) (pl : value) :
  replay (bindings (trace_complete s pl))
  = <["plantuml" := pl]> (replay (bindings (trace_complete s VNone))).
Proof.
  unfold replay. vm_compute bindings. cbn [foldl fst snd].
  rewrite (insert_insert_ne _ "plantuml" "html_context") by done.
  rewrite (insert_insert_ne _ "plantuml" "html_static_path") by done.
  by rewrite insert_insert_eq.
Qed.

Lemma outcome_with_environ (env : gmap string pystr) (w : World) :
  run conf_py (with_environ env w) =
  match run conf_py w with
  | (Ok _, _) =>
    match filesystem w !! "../VERSION" with
    | Some (RegularFile true bs) =>
      match read_text (preferred_encoding w) bs with
      | Some s =>
        (Ok tt, state_of (trace_complete s (getenv (with_environ env w) "plantuml")))
      | None => run conf_py w
      end
    | _ => run conf_py w
    end
  | other => other
  end.
Proof.
  rewrite !run_conf_py. unfold conf_py_cases, cases.
  cbn [with_environ site_packages filesystem preferred_encoding].
  repeat case_match; simplify_eq; reflexivity.
Qed.

(** Line 40: [plantuml] is the value of the environment variable
    [plantuml], and [None] when the variable is not set; a missing
    variable is no error.  The environment decides nothing else: with any
    other environment the run ends the same way, and every other name has
    the same value. *)
Theorem environment_only_sets_plantuml (w : World) (env : gmap string pystr) :
  outcome (with_environ env w) = outcome w
  ∧ (∀ x, x ≠ "plantuml" → config (with_environ env w) !! x = config w !! x)
  ∧ (completes w →
     config w !! "plantuml" =
     Some (match environ w !! "plantuml" with
           | Some s => VStr s
           | None => VNone
           end)).
Proof.
  split; [|split].
  - unfold outcome. rewrite outcome_with_environ.
    repeat case_match; simplify_eq; cbn [fst];
      repeat match goal with a : unit |- _ => destruct a end; reflexivity.
  - intros x Hx. unfold config. rewrite outcome_with_environ.
    destruct (run conf_py w) as [[[]|e] st] eqn:Hrun; [|done].
    assert (completes w) as Hc by (unfold completes, outcome; by rewrite Hrun).
    apply completes_inv in Hc as (bs & s & _ & Hfs & Hs & Hrun').
    rewrite Hfs, Hs. rewrite Hrun' in Hrun. simplify_eq.
    cbn [snd globals state_of].
    rewrite (replay_plantuml s (getenv _ _)), (replay_plantuml s (getenv w _)).
    by rewrite !lookup_insert_ne.
  - intros (bs & s & _ & _ & _ & Hrun)%completes_inv.
    unfold config. rewrite Hrun. cbn [snd globals state_of].
    by destruct (settings_complete s (getenv w "plantuml")) as (_ & _ & _ & ? & _).
Qed.

Lemma environment_only_sets_plantuml_witness :
  config (machine UTF_8 version_0_2_6 {[ "plantuml" := u "plantuml.jar" ]})
    !! "plantuml"
  = Some (match environ (machine UTF_8 version_0_2_6
                           {[ "plantuml" := u "plantuml.jar" ]}) !! "plantuml" with
          | Some s => VStr s
          | None => VNone
          end).
Proof.
  apply (proj2 (proj2 (environment_only_sets_plantuml
                         (machine UTF_8 version_0_2_6
                            {[ "plantuml" := u "plantuml.jar" ]}) ∅))).
  vm_compute. reflexivity.
Defined.

Lemma dom_replay (bs : list (string * value)) :
  dom (replay bs) = list_to_set (bs.*1) :> gset string.
Proof.
  induction bs as [|[x v] bs IH] using rev_ind; [done|].
  rewrite replay_snoc, dom_insert_L, IH, fmap_app, list_to_set_app_L.
  cbn [fmap list_fmap fst list_to_set]. rewrite (right_id_L ∅ (∪)).
  apply (comm_L (∪)).
Qed.

(** A run to the end binds these 27 names and no other: the settings, and
    with them the three imported names, the file object [content_file] and
    [VERSION]. *)
Theorem names_bound_by_a_complete_run (w : World) :
  completes w →
  dom (config w) = list_to_set names_of_a_complete_run
  ∧ config w !! "content_file" = Some (VFile "../VERSION")
  ∧ config w !! "sys" = Some (VModule "sys")
  ∧ config w !! "os" = Some (VModule "os")
  ∧ config w !! "CommonMarkParser"
    = Some (VImported "recommonmark.parser" "CommonMarkParser").
Proof.
  intros (bs & s & _ & _ & _ & Hrun)%completes_inv.
  unfold config. rewrite Hrun. cbn [snd globals state_of].
  generalize (getenv w "plantuml"); intros pl.
  split; [|repeat split; vm_compute; reflexivity].
  rewrite dom_replay. vm_compute bindings. cbn [fmap list_fmap fst].
  unfold names_of_a_complete_run. cbn [list_to_set]. set_solver.
Qed.

Lemma names_bound_by_a_complete_run_witness :
  dom (config (machine UTF_8 version_0_2_6 ∅))
    = list_to_set names_of_a_complete_run
  ∧ config (machine UTF_8 version_0_2_6 ∅) !! "content_file"
    = Some (VFile "../VERSION")
  ∧ config (machine UTF_8 version_0_2_6 ∅) !! "sys" = Some (VModule "sys")
  ∧ config (machine UTF_8 version_0_2_6 ∅) !! "os" = Some (VModule "os")
  ∧ config (machine UTF_8 version_0_2_6 ∅) !! "CommonMarkParser"
    = Some (VImported "recommonmark.parser" "CommonMarkParser").
Proof.
  apply (names_bound_by_a_complete_run (machine UTF_8 version_0_2_6 ∅)).
  vm_compute. reflexivity.
Defined.

(** The remaining settings: after a run to the end they hold the
    literals of lines 5-6, 15-18, 23-26, 33-36 and 43, whatever the
    world. *)
Theorem literal_settings (w : World) :
  completes w →
  config w !! "project" = Some (VStr (u "OpenDXL Java SDK"))
  ∧ config w !! "copyright" = Some (VStr (u "2019, McAfee LLC"))
  ∧ config w !! "needs_sphinx" = Some (VStr (u "1.0"))
  ∧ config w !! "master_doc" = Some (VStr (u "index"))
  ∧ config w !! "pygments_style" = Some (VStr (u "tango"))
  ∧ config w !! "add_function_parentheses" = Some (VBool true)
  ∧ config w !! "templates_path" = Some (VList [VStr (u "_templates")])
  ∧ config w !! "exclude_trees" = Some (VList [VStr (u ".build")])
  ∧ config w !! "source_encoding" = Some (VStr (u "utf-8-sig"))
  ∧ config w !! "html_short_title" = Some (VStr (u "my-project"))
  ∧ config w !! "htmlhelp_basename" = Some (VStr (u "my-project-doc"))
  ∧ config w !! "html_use_index" = Some (VBool true)
  ∧ config w !! "html_show_sourcelink" = Some (VBool false)
  ∧ config w !! "html_context" =
      Some (VDict [(VStr (u "css_files"),
                    VList [VStr (u "_static/theme_overrides.css")])]).
Proof.
  intros (bs & s & _ & _ & _ & Hrun)%completes_inv.
  unfold config. rewrite Hrun. cbn [snd globals state_of].
  generalize (getenv w "plantuml"); intros pl.
  repeat split; vm_compute; reflexivity.
Qed.

Lemma literal_settings_witness :
  config (machine Latin_1 e_acute ∅) !! "project"
    = Some (VStr (u "OpenDXL Java SDK"))
  ∧ config (machine Latin_1 e_acute ∅) !! "copyright"
    = Some (VStr (u "2019, McAfee LLC"))
  ∧ config (machine Latin_1 e_acute ∅) !! "needs_sphinx" = Some (VStr (u "1.0"))
  ∧ config (machine Latin_1 e_acute ∅) !! "master_doc" = Some (VStr (u "index"))
  ∧ config (machine Latin_1 e_acute ∅) !! "pygments_style"
    = Some (VStr (u "tango"))
  ∧ config (machine Latin_1 e_acute ∅) !! "add_function_parentheses"
    = Some (VBool true)
  ∧ config (machine Latin_1 e_acute ∅) !! "templates_path"
    = Some (VList [VStr (u "_templates")])
  ∧ config (machine Latin_1 e_acute ∅) !! "exclude_trees"
    = Some (VList [VStr (u ".build")])
  ∧ config (machine Latin_1 e_acute ∅) !! "source_encoding"
    = Some (VStr (u "utf-8-sig"))
  ∧ config (machine Latin_1 e_acute ∅) !! "html_short_title"
    = Some (VStr (u "my-project"))
  ∧ config (machine Latin_1 e_acute ∅) !! "htmlhelp_basename"
    = Some (VStr (u "my-project-doc"))
  ∧ config (machine Latin_1 e_acute ∅) !! "html_use_index" = Some (VBool true)
  ∧ config (machine Latin_1 e_acute ∅) !! "html_show_sourcelink"
    = Some (VBool false)
  ∧ config (machine Latin_1 e_acute ∅) !! "html_context" =
      Some (VDict [(VStr (u "css_files"),
                    VList [VStr (u "_static/theme_overrides.css")])]).
Proof.
  apply (literal_settings (machine Latin_1 e_acute ∅)).
  vm_compute. reflexivity.
Defined.

Lemma list_to_set_mono (l k : list string) :
  Forall (λ x, x ∈ k) l → list_to_set l ⊆@{gset string} list_to_set k.
Proof.
  intros H x Hx%elem_of_list_to_set. apply elem_of_list_to_set.
  rewrite Forall_forall in H. auto.
Qed.

(** A run that fails, whichever of the import, the open or the read
    fails, has bound no setting from line 9 on: [sys] and [os] are bound,
    every bound name is one of lines 2-8, [VERSION] is unbound, and the
    environment has not been looked up. *)
Theorem a_failed_run_binds_no_setting (w : World) (e : exn) :
  outcome w = Raise e →
  config w !! "sys" = Some (VModule "sys")
  ∧ config w !! "os" = Some (VModule "os")
  ∧ dom (config w) ⊆ list_to_set names_before_version
  ∧ config w !! "VERSION" = None
  ∧ lookups (events w) = [].
Proof.
  intros H. destruct (events_Raise w e H) as [Hev ->].
  rewrite dom_replay. unfold names_before_version.
  destruct Hev as [-> | [-> | ->]];
    (split; [vm_compute; reflexivity|]);
    (split; [vm_compute; reflexivity|]);
    (split; [vm_compute bindings; cbn [fmap list_fmap fst];
             apply list_to_set_mono;
             repeat (apply Forall_cons_2; [find_in_list|]);
             apply Forall_nil_2|]);
    split; vm_compute; reflexivity.
Qed.

Lemma a_failed_run_binds_no_setting_witness :
  config bare_machine !! "sys" = Some (VModule "sys")
  ∧ config bare_machine !! "os" = Some (VModule "os")
  ∧ dom (config bare_machine) ⊆ list_to_set names_before_version
  ∧ config bare_machine !! "VERSION" = None
  ∧ lookups (events bare_machine) = [].
Proof.
  apply (a_failed_run_binds_no_setting bare_machine
           (ModuleNotFoundError "recommonmark.parser")).
  vm_compute. reflexivity.
Defined.

Lemma utf_8_decode_ascii (bs : list byte) :
  is_ascii bs → utf_8_decode bs = Some (Byte.to_N <$> bs).
Proof.
  induction 1 as [|b bs Hb _ IH]; [done|].
  cbn [utf_8_decode fmap list_fmap].
  apply N.ltb_lt in Hb. rewrite Hb. by rewrite IH.
Qed.

Lemma ascii_decode_ascii (bs : list byte) :
  is_ascii bs → ascii_decode bs = Some (Byte.to_N <$> bs).
Proof.
  induction 1 as [|b bs Hb _ IH]; [done|].
  cbn [ascii_decode fmap list_fmap].
  apply N.ltb_lt in Hb. rewrite Hb. by rewrite IH.
Qed.

Lemma decode_ascii (enc : encoding) (bs : list byte) :
  is_ascii bs → decode enc bs = Some (Byte.to_N <$> bs).
Proof.
  destruct enc; simpl;
    auto using utf_8_decode_ascii, ascii_decode_ascii.
Qed.

(** A ['../VERSION'] of 7-bit bytes reads the same on every platform: the
    read never fails to decode, [version] and [release] are the bytes as
    characters with line endings translated, and no other preferred
    encoding changes anything in the final namespace. *)
Theorem ascii_version_is_portable (w : World) (bs : list byte) :
  importable w →
  filesystem w !! "../VERSION" = Some (RegularFile true bs) →
  is_ascii bs →
  completes w
  ∧ config w !! "version" = Some (VStr (universal_newlines (Byte.to_N <$> bs)))
  ∧ config w !! "release" = Some (VStr (universal_newlines (Byte.to_N <$> bs)))
  ∧ (∀ enc, outcome (with_encoding enc w) = outcome w
            ∧ config (with_encoding enc w) = config w).
Proof.
  intros Himp Hfs Hascii.
  assert (∀ enc, read_text enc bs = Some (universal_newlines (Byte.to_N <$> bs)))
    as Hread by (intros; unfold read_text; by rewrite decode_ascii).
  pose proof (run_complete w bs _ Himp Hfs (Hread _)) as Hrun.
  destruct (settings_complete (universal_newlines (Byte.to_N <$> bs))
              (getenv w "plantuml")) as (_ & H2 & H3 & _).
  unfold completes, outcome, config. rewrite Hrun.
  repeat split; try done;
    rewrite (run_complete (with_encoding enc w) bs _ Himp Hfs (Hread _));
    reflexivity.
Qed.

Lemma ascii_version_is_portable_witness :
  completes (machine Latin_1 version_0_2_6 ∅)
  ∧ config (machine Latin_1 version_0_2_6 ∅) !! "version"
    = Some (VStr (universal_newlines (Byte.to_N <$> version_0_2_6)))
  ∧ config (machine Latin_1 version_0_2_6 ∅) !! "release"
    = Some (VStr (universal_newlines (Byte.to_N <$> version_0_2_6)))
  ∧ (∀ enc, outcome (with_encoding enc (machine Latin_1 version_0_2_6 ∅))
            = outcome (machine Latin_1 version_0_2_6 ∅)
            ∧ config (with_encoding enc (machine Latin_1 version_0_2_6 ∅))
              = config (machine Latin_1 version_0_2_6 ∅)).
Proof.
  apply (ascii_version_is_portable (machine Latin_1 version_0_2_6 ∅)
           version_0_2_6).
  - exists ["CommonMarkParser"]. split; [reflexivity|]. by apply list_elem_of_here.
  - reflexivity.
  - unfold is_ascii, version_0_2_6. simpl. repeat constructor.
Defined.

Lemma universal_newlines_removes_CR_le (n : nat) (s : pystr) :
  (List.length s ≤ n)%nat → CR ∉ universal_newlines s.
Proof.
  revert s. induction n as [|n IH]; intros s Hlen.
  - destruct s; [|simpl in Hlen; lia]. apply not_elem_of_nil.
  - destruct s as [|c s]; [apply not_elem_of_nil|].
    cbn [universal_newlines].
    destruct (N.eqb_spec c CR) as [->|Hc].
    + apply not_elem_of_cons. split; [done|].
      destruct s as [|d s]; [apply not_elem_of_nil|].
      destruct (d =? LF); apply IH; simpl in *; lia.
    + apply not_elem_of_cons. split; [done|]. apply IH. simpl in *; lia.
Qed.

(** After a run to the end, [version] and [release] hold no carriage
    return, whatever line endings ['../VERSION'] has. *)
Theorem version_has_no_carriage_return (w : World) (s : pystr) :
  completes w →
  config w !! "version" = Some (VStr s) ∨ config w !! "release" = Some (VStr s) →
  CR ∉ s.
Proof.
  intros (bs & s' & _ & _ & Hs & Hrun)%completes_inv.
  unfold config. rewrite Hrun. cbn [snd globals state_of].
  destruct (settings_complete s' (getenv w "plantuml")) as (_ & H2 & H3 & _).
  rewrite H2, H3. apply read_text_Some in Hs as (d & _ & ->).
  intros [?|?]; simplify_eq;
    apply (universal_newlines_removes_CR_le (List.length d)); lia.
Qed.

Lemma version_has_no_carriage_return_witness : CR ∉ u "1.0" ++ [LF].
Proof.
  apply (version_has_no_carriage_return (machine UTF_8 version_crlf ∅)).
  - vm_compute. reflexivity.
  - left. vm_compute. reflexivity.
Defined.

Lemma replay_from_snoc (m : gmap string value) (bs : list (string * value))
    (x : string) (v : value) :
  replay_from m (bs ++ [(x, v)]) = <[x := v]> (replay_from m bs).
Proof. unfold replay_from. by rewrite foldl_snoc. Qed.

Lemma replay_from_lookup (m : gmap string value) (bs : list (string * value))
    (x : string) :
  replay_from m bs !! x =
  match replay bs !! x with
  | Some v => Some v
  | None => m !! x
  end.
Proof.
  induction bs as [|[y vy] bs IH] using rev_ind.
  - unfold replay, replay_from; simpl. by rewrite lookup_empty.
  - rewrite replay_from_snoc, replay_snoc.
    destruct (decide (y = x)) as [->|Hne].
    + by rewrite !lookup_insert_eq.
    + by rewrite !lookup_insert_ne.
Qed.

Lemma exec_conf_py (w : World) (st : State) :
  exec conf_py w st =
  (outcome w,
   {| globals := replay_from (globals st) (bindings (events w));
      trace := trace st ++ events w |}).
Proof.
  unfold outcome, events. rewrite run_conf_py.
  unfold conf_py_cases, cases, getenv. unfold_stmts.
  destruct (site_packages w !! "recommonmark.parser") as [names|];
    [|same_state].
  destruct (bool_decide ("CommonMarkParser" ∈ names)); [|same_state].
  destruct (filesystem w !! "../VERSION") as [[|[|] bs]|] eqn:Hfs;
    [same_state| |same_state|same_state].
  lookup_bound. unfold_stmts. rewrite Hfs.
  destruct (read_text (preferred_encoding w) bs) as [s|]; [|same_state].
  repeat (lookup_bound; unfold_stmts).
  destruct (environ w !! "plantuml"); same_state.
Qed.

(** What the start namespace binds does not matter, as long as it leaves
    the built-ins in sight.  From such a namespace, the run ends as it
    ends from the empty one and does the same operations; every name the
    script binds gets the same value, and every other name keeps the value
    it had. *)
Theorem initial_namespace_is_framed (w : World) (st : State) (x : string) :
  builtins_in_sight st →
  (exec conf_py w st).1 = outcome w
  ∧ trace (exec conf_py w st).2 = trace st ++ events w
  ∧ globals (exec conf_py w st).2 !! x =
    match config w !! x with
    | Some v => Some v
    | None => globals st !! x
    end.
Proof.
  intros _. rewrite exec_conf_py. cbn [fst snd globals trace].
  repeat split. rewrite replay_from_lookup.
  by rewrite (proj1 (events_cases w)).
Qed.

Lemma initial_namespace_is_framed_witness :
  (exec conf_py (machine UTF_8 version_0_2_6 ∅) sphinx_namespace).1
    = outcome (machine UTF_8 version_0_2_6 ∅)
  ∧ trace (exec conf_py (machine UTF_8 version_0_2_6 ∅) sphinx_namespace).2
    = trace sphinx_namespace ++ events (machine UTF_8 version_0_2_6 ∅)
  ∧ globals (exec conf_py (machine UTF_8 version_0_2_6 ∅) sphinx_namespace).2
      !! "__file__" =
    match config (machine UTF_8 version_0_2_6 ∅) !! "__file__" with
    | Some v => Some v
    | None => globals sphinx_namespace !! "__file__"
    end.
Proof.
  apply (initial_namespace_is_framed (machine UTF_8 version_0_2_6 ∅)
           sphinx_namespace "__file__").
  split; vm_compute; reflexivity.
Defined.

(** Running the script a second time in the namespace the first run left
    changes nothing: the outcome and the final namespace are those of one
    run. *)
Theorem second_run_changes_nothing (w : World) :
  (run (conf_py ++ conf_py) w).1 = outcome w
  ∧ globals (run (conf_py ++ conf_py) w).2 = config w.
Proof.
  unfold run. rewrite exec_app.
  destruct (exec conf_py w init) as [[[]|e] st1] eqn:Hrun.
  - assert (outcome w = Ok tt ∧ config w = globals st1) as [Hout Hcfg].
    { unfold outcome, config, run. by rewrite Hrun. }
    rewrite exec_conf_py. cbn [fst snd globals]. split; [done|].
    apply map_eq. intros x. rewrite replay_from_lookup.
    rewrite <- (proj1 (events_cases w)), <- Hcfg.
    by destruct (config w !! x).
  - unfold outcome, config, run. by rewrite Hrun.
Qed.
